(** * nlmortgage: monthly schedules of Dutch annuity and linear mortgages

    A shallow embedding of [nlmortgage.py] and a verification of its
    specification.

    Numbers.  The program computes on Python floats and numpy float arrays.
    The embedding reads every float as the rational it denotes and every
    operation as the exact one ([Q], compared with [==]); rounding,
    overflow, [inf] and [nan] are outside the model.  Python [int]s are [Z].
    A numpy one-dimensional array and a Python list are both [list Q].

    Failure.  Dividing a Python float by the Python int [0] raises
    [ZeroDivisionError], indexing past the end raises [IndexError]; the
    functions that can do so return a [result]. *)

From Stdlib Require Import QArith Qabs Qpower Lqa List ZArith Lia Bool.
Import ListNotations.
Local Open Scope Q_scope.

(** ** Exceptions *)

Inductive exn : Set :=
| ZeroDivisionError
| IndexError.

Inductive result (A : Type) : Type :=
| Ok (a : A)
| Raise (e : exn).

Arguments Ok {A} a.
Arguments Raise {A} e.

Definition bind {A B : Type} (m : result A) (k : A -> result B) : result B :=
  match m with
  | Ok a => k a
  | Raise e => Raise e
  end.

Notation "x <- m ;; k" := (bind m (fun x => k))
  (at level 61, m at next level, right associativity).

Fixpoint mapM {A B : Type} (f : A -> result B) (l : list A) : result (list B) :=
  match l with
  | [] => Ok []
  | a :: t => b <- f a ;; bs <- mapM f t ;; Ok (b :: bs)
  end.

(** ** The Python fragment the module uses *)

Module Py.

(** [range(start, stop)]: empty when [stop <= start]. *)
Definition range (start stop : Z) : list Z :=
  map (fun k => (start + Z.of_nat k)%Z) (seq 0 (Z.to_nat (stop - start))).

(** [[x] * n]: the empty list when [n <= 0]. *)
Definition list_repeat (x : Q) (n : Z) : list Q := repeat x (Z.to_nat n).

(** [x / d] for a float [x] and an int [d]. *)
Definition truediv (x : Q) (d : Z) : result Q :=
  if (d =? 0)%Z then Raise ZeroDivisionError else Ok (x / inject_Z d).

End Py.

(** ** The numpy fragment the module uses *)

Module Np.

(** [a[i]] for an int [i]; a negative index counts from the end. *)
Definition getitem (a : list Q) (i : Z) : result Q :=
  let n := Z.of_nat (length a) in
  let j := if (i <? 0)%Z then (i + n)%Z else i in
  if ((0 <=? j) && (j <? n))%Z%bool
  then match nth_error a (Z.to_nat j) with
       | Some x => Ok x
       | None => Raise IndexError
       end
  else Raise IndexError.

(** Element-wise operation on two arrays.  Every use below is on arrays of
    one length (lemmas [annuity_mortgage_shapes], [linear_interest_shape]
    and [overhead_costs_shapes]). *)
Definition map2 (f : Q -> Q -> Q) (a b : list Q) : list Q :=
  map (fun xy => f (fst xy) (snd xy)) (combine a b).

Definition add : list Q -> list Q -> list Q := map2 Qplus.
Definition sub : list Q -> list Q -> list Q := map2 Qminus.

(** [c * a], [a * c], [c + a] and [c - a] for a scalar [c]. *)
Definition smul (c : Q) (a : list Q) : list Q := map (fun x => c * x) a.
Definition muls (a : list Q) (c : Q) : list Q := map (fun x => x * c) a.
Definition sadd (c : Q) (a : list Q) : list Q := map (fun x => c + x) a.
Definition ssub (c : Q) (a : list Q) : list Q := map (fun x => c - x) a.

(** [np.cumsum]: running sums, the first entry being the first element. *)
Fixpoint cumsum_from (acc : Q) (a : list Q) : list Q :=
  match a with
  | [] => []
  | x :: t => (acc + x) :: cumsum_from (acc + x) t
  end.

Definition cumsum (a : list Q) : list Q :=
  match a with
  | [] => []
  | x :: t => x :: cumsum_from x t
  end.

End Np.

(** ** The numpy-financial functions the module calls

    [numpy_financial] is an external package, not a file of this repository;
    these are its [pmt], [fv], [ipmt] and [ppmt] as the package defines them,
    with the optional arguments [fv] and [when] written out ([nlmortgage.py]
    leaves them at their defaults [0] and ['end']).  Lemmas
    [rbl_spec_balance], [pmt_textbook] and [present_value_is_principal]
    relate them to the amortisation table the specification describes. *)

Module Npf.

Inductive when_t : Set := End_ | Begin_.

Definition convert_when (w : when_t) : Q :=
  match w with End_ => 0 | Begin_ => 1 end.

Definition pmt (rate : Q) (nper : Z) (pv fv : Q) (w : when_t) : Q :=
  let when := convert_when w in
  let temp := (1 + rate) ^ nper in
  let mask := Qeq_bool rate 0 in
  let masked_rate := if mask then 1 else rate in
  let fact := if mask then inject_Z nper
              else (1 + masked_rate * when) * (temp - 1) / masked_rate in
  - (fv + pv * temp) / fact.

Definition fv (rate : Q) (nper : Z) (pmt pv : Q) (w : when_t) : Q :=
  let when := convert_when w in
  if Qeq_bool rate 0 then - (pv + pmt * inject_Z nper)
  else
    let temp := (1 + rate) ^ nper in
    - pv * temp - pmt * (1 + rate * when) / rate * (temp - 1).

(** The remaining balance on the loan before period [per]. *)
Definition rbl (rate : Q) (per : Z) (pmt pv : Q) (w : when_t) : Q :=
  fv rate (per - 1) pmt pv w.

(** For [per < 1] numpy-financial stores [nan]; the callers below take
    [per] from [range(1, months + 1)]. *)
Definition ipmt (rate : Q) (nper per : Z) (pv fv : Q) (w : when_t) : Q :=
  let total_pmt := pmt rate nper pv fv w in
  let ipmt_value := rbl rate per total_pmt pv w * rate in
  match w with
  | End_ => ipmt_value
  | Begin_ => if (per =? 1)%Z then 0 else ipmt_value / (1 + rate)
  end.

Definition ppmt (rate : Q) (nper per : Z) (pv fv : Q) (w : when_t) : Q :=
  let total := pmt rate nper pv fv w in
  total - ipmt rate nper per pv fv w.

End Npf.

(** ** nlmortgage.py *)

Definition INTEREST_DEDUCTIBLE : Q := 1 - 0.64.

Definition YEARLY_INSURANCE : Q := 0.0013.
Definition YEARLY_VVE : Q := 0.005.
Definition YEARLY_WOZ : Q := 0.000577.

(** The locals [payment], [bruto_payments] and [interest_payments] of
    [annuity_mortgage]. *)
Definition annuity_payment (principal interest_rate : Q) (years : Z) : Q :=
  let monthly_rate := interest_rate / 12 in
  let months := (years * 12)%Z in
  Npf.pmt monthly_rate months (- principal) 0 Npf.End_.

Definition annuity_bruto_payments (principal interest_rate : Q) (years : Z)
  : list Q :=
  let months := (years * 12)%Z in
  Py.list_repeat (annuity_payment principal interest_rate years) months.

Definition annuity_interest_payments (principal interest_rate : Q) (years : Z)
  : list Q :=
  let monthly_rate := interest_rate / 12 in
  let months := (years * 12)%Z in
  map (fun per => Npf.ipmt monthly_rate months per (- principal) 0 Npf.End_)
      (Py.range 1 (months + 1)).

Definition annuity_mortgage (principal interest_rate : Q) (years : Z) : list Q :=
  let monthly_rate := interest_rate / 12 in
  let months := (years * 12)%Z in
  let payment := Npf.pmt monthly_rate months (- principal) 0 Npf.End_ in
  let bruto_payments := Py.list_repeat payment months in
  let interest_payments :=
    map (fun per => Npf.ipmt monthly_rate months per (- principal) 0 Npf.End_)
        (Py.range 1 (months + 1)) in
  let interest_deductible := Np.smul INTEREST_DEDUCTIBLE interest_payments in
  let net_payments := Np.sub bruto_payments interest_deductible in
  net_payments.

(** The local [payment] of [annuity_mortgage_remaining_principal]: the
    principal portions. *)
Definition annuity_principal_payments (principal interest_rate : Q) (years : Z)
  : list Q :=
  let monthly_rate := interest_rate / 12 in
  let months := (years * 12)%Z in
  map (fun per => Npf.ppmt monthly_rate months per (- principal) 0 Npf.End_)
      (Py.range 1 (months + 1)).

Definition annuity_mortgage_remaining_principal
  (principal interest_rate : Q) (years : Z) : list Q :=
  let monthly_rate := interest_rate / 12 in
  let months := (years * 12)%Z in
  let payment :=
    map (fun per => Npf.ppmt monthly_rate months per (- principal) 0 Npf.End_)
        (Py.range 1 (months + 1)) in
  let cumsum := Np.cumsum payment in
  Np.ssub principal cumsum.

Definition linear_mortgage_remaining_principal (principal : Q) (years : Z)
  : result (list Q) :=
  let months := (years * 12)%Z in
  linear_payment <- Py.truediv principal months ;;
  Ok (map (fun i => principal - linear_payment * inject_Z i)
          (Py.range 0 months)).


Definition linear_mortgage (principal interest_rate : Q) (years : Z)
  : result (list Q) :=
  let monthly_rate := interest_rate / 12 in
  let months := (years * 12)%Z in
  linear_payment <- Py.truediv principal months ;;
  remaining_principal <- linear_mortgage_remaining_principal principal years ;;
  interest_payments <-
    mapM (fun i => x <- Np.getitem remaining_principal i ;; Ok (x * monthly_rate))
         (Py.range 0 months) ;;
  let interest_deductible := Np.smul INTEREST_DEDUCTIBLE interest_payments in
  let net_payments :=
    Np.sub (Np.sadd linear_payment interest_payments) interest_deductible in
  Ok net_payments.

Definition monthly_asset_appreciation
  (initial_asset_value : Q) (months : Z) (yearly_asset_appreciation : Q)
  : list Q :=
  let monthly_rate := yearly_asset_appreciation / 12 in
  map (fun i => initial_asset_value * (1 + monthly_rate) ^ i)
      (Py.range 0 months).

Definition asset_appreciation
  (initial_asset_value yearly_asset_appreciation : Q) (years : Z) : list Q :=
  let months := (years * 12)%Z in
  monthly_asset_appreciation initial_asset_value months yearly_asset_appreciation.

Definition overhead_costs
  (initial_asset_value yearly_asset_appreciation : Q) (years : Z) : list Q :=
  let house_value_per_month :=
    asset_appreciation initial_asset_value yearly_asset_appreciation years in
  let monthly_insurance := Np.muls house_value_per_month (YEARLY_INSURANCE / 12) in
  let monthly_vve := Np.muls house_value_per_month (YEARLY_VVE / 12) in
  let monthly_woz := Np.muls house_value_per_month (YEARLY_WOZ / 12) in
  Np.add (Np.add monthly_insurance monthly_vve) monthly_woz.

(** The class [Mortgage] and its two subclasses, with their methods. *)
Module Mortgage.
Record t : Set := init {
  principal : Q;
  interest_rate : Q;
  years : Z
}.
End Mortgage.

Module LinearMortgage.
Import Mortgage.
Definition monthly_payment (self : Mortgage.t) : result (list Q) :=
  linear_mortgage (principal self) (interest_rate self) (years self).
Definition remaining_principal (self : Mortgage.t) : result (list Q) :=
  linear_mortgage_remaining_principal (principal self) (years self).
End LinearMortgage.

Module AnnuityMortgage.
Import Mortgage.
Definition monthly_payment (self : Mortgage.t) : list Q :=
  annuity_mortgage (principal self) (interest_rate self) (years self).
Definition remaining_principal (self : Mortgage.t) : list Q :=
  annuity_mortgage_remaining_principal
    (principal self) (interest_rate self) (years self).
End AnnuityMortgage.

(** ** The specification's vocabulary *)



(** The outstanding balance before period [k + 1]: it starts from the
    principal, and each period takes the principal portion [P - I] off it,
    [I = r * balance] being the interest portion. *)
Fixpoint spec_balance (principal r P : Q) (k : nat) : Q :=
  match k with
  | O => principal
  | S j =>
      let b := spec_balance principal r P j in
      b - (P - r * b)
  end.





(** Two schedules hold the same numbers. *)
Definition same_schedule (a b : list Q) : Prop :=
  length a = length b /\
  forall k, (k < length a)%nat -> nth k a 0 == nth k b 0.

(** * Lists, ranges and arrays *)

Section Lists.

Lemma nth_map_lt {A B : Type} (f : A -> B) (l : list A) (k : nat) (d : B) (d' : A) :
  (k < length l)%nat -> nth k (map f l) d = f (nth k l d').
Proof.
  intros Hk. rewrite (nth_indep _ d (f d')) by (rewrite length_map; exact Hk).
  apply map_nth.
Qed.

Lemma range_length (a b : Z) : length (Py.range a b) = Z.to_nat (b - a).
Proof. unfold Py.range. now rewrite length_map, length_seq. Qed.

Lemma range_nth (a b : Z) (k : nat) (d : Z) :
  (k < Z.to_nat (b - a))%nat -> nth k (Py.range a b) d = (a + Z.of_nat k)%Z.
Proof.
  intros Hk. unfold Py.range.
  rewrite (nth_map_lt _ _ _ _ O) by (rewrite length_seq; exact Hk).
  now rewrite seq_nth.
Qed.

Lemma range_In (a b i : Z) :
  In i (Py.range a b) -> exists k, (k < Z.to_nat (b - a))%nat /\ i = (a + Z.of_nat k)%Z.
Proof.
  unfold Py.range. rewrite in_map_iff. intros [k [<- Hk]].
  apply in_seq in Hk. exists k. split; [lia | reflexivity].
Qed.

Lemma list_repeat_length (x : Q) (n : Z) : length (Py.list_repeat x n) = Z.to_nat n.
Proof. apply repeat_length. Qed.

Lemma list_repeat_nth (x : Q) (n : Z) (k : nat) :
  (k < Z.to_nat n)%nat -> nth k (Py.list_repeat x n) 0 = x.
Proof.
  intros Hk. unfold Py.list_repeat. apply nth_repeat_lt. exact Hk.
Qed.

Lemma map2_length (f : Q -> Q -> Q) (a b : list Q) :
  length a = length b -> length (Np.map2 f a b) = length a.
Proof.
  intros H. unfold Np.map2. rewrite length_map, length_combine. lia.
Qed.

Lemma map2_nth (f : Q -> Q -> Q) (a b : list Q) (k : nat) :
  length a = length b -> (k < length a)%nat ->
  nth k (Np.map2 f a b) 0 = f (nth k a 0) (nth k b 0).
Proof.
  intros H Hk. unfold Np.map2.
  rewrite (nth_map_lt _ _ _ _ (0, 0)) by (rewrite length_combine; lia).
  now rewrite combine_nth.
Qed.

Lemma mapM_ok {A B : Type} (f : A -> result B) (g : A -> B) (l : list A) :
  (forall a, In a l -> f a = Ok (g a)) -> mapM f l = Ok (map g l).
Proof.
  induction l as [|a t IH]; intros H; simpl; [reflexivity|].
  rewrite (H a) by (left; reflexivity). simpl.
  rewrite IH by (intros x Hx; apply H; right; exact Hx). reflexivity.
Qed.

(** Indexing an array built over [range(0, n)] at a member of that range
    succeeds. *)
Lemma getitem_range (g : Z -> Q) (n i : Z) :
  In i (Py.range 0 n) -> Np.getitem (map g (Py.range 0 n)) i = Ok (g i).
Proof.
  intros Hi. destruct (range_In _ _ _ Hi) as [k [Hk ->]].
  unfold Np.getitem. rewrite length_map, range_length.
  replace (0 + Z.of_nat k <? 0)%Z with false by (symmetry; apply Z.ltb_ge; lia).
  replace (0 <=? 0 + Z.of_nat k)%Z with true by (symmetry; apply Z.leb_le; lia).
  replace (0 + Z.of_nat k <? Z.of_nat (Z.to_nat (n - 0)))%Z with true
    by (symmetry; apply Z.ltb_lt; lia).
  simpl andb. cbv iota.
  replace (Z.to_nat (0 + Z.of_nat k)) with k by lia.
  rewrite nth_error_map.
  rewrite (nth_error_nth' _ 0%Z) by (rewrite range_length; exact Hk).
  rewrite range_nth by exact Hk. reflexivity.
Qed.




Lemma cumsum_from_length (acc : Q) (a : list Q) :
  length (Np.cumsum_from acc a) = length a.
Proof.
  revert acc. induction a as [|x t IH]; intros acc; simpl; [reflexivity|].
  now rewrite IH.
Qed.

Lemma cumsum_length (a : list Q) : length (Np.cumsum a) = length a.
Proof. destruct a; simpl; [reflexivity|]. now rewrite cumsum_from_length. Qed.



End Lists.

(** * Powers of the growth factor *)

Section Powers.

Lemma Qpower_succ_nat (q : Q) (k : nat) :
  q ^ Z.of_nat (S k) == q * q ^ Z.of_nat k.
Proof.
  replace (Z.of_nat (S k)) with (1 + Z.of_nat k)%Z by lia.
  rewrite Qpower_plus' by lia. now rewrite Qpower_1_r.
Qed.



Lemma Qpower_nat_one (q : Q) (k : nat) : q == 1 -> q ^ Z.of_nat k == 1.
Proof. intros ->. apply Qpower_1. Qed.


End Powers.

(** * The balance of an annuity loan *)

Section Annuity.

(** The monthly rate, the principal and an arbitrary payment. *)
Variables (r A P : Q).

Lemma rate_cases : (Qeq_bool r 0 = true /\ r == 0) \/ (Qeq_bool r 0 = false /\ ~ r == 0).
Proof.
  destruct (Qeq_bool r 0) eqn:E.
  - left. split; [reflexivity | now apply Qeq_bool_eq].
  - right. split; [reflexivity | now apply Qeq_bool_neq].
Qed.

(** numpy-financial's closed form of the balance obeys the recurrence of
    the amortisation table, whatever the payment. *)
Lemma rbl_step (k : nat) :
  Npf.rbl r (Z.of_nat (S k) + 1) P (- A) Npf.End_ ==
  Npf.rbl r (Z.of_nat k + 1) P (- A) Npf.End_
  - (P - r * Npf.rbl r (Z.of_nat k + 1) P (- A) Npf.End_).
Proof.
  unfold Npf.rbl, Npf.fv, Npf.convert_when.
  replace (Z.of_nat (S k) + 1 - 1)%Z with (Z.of_nat (S k)) by lia.
  replace (Z.of_nat k + 1 - 1)%Z with (Z.of_nat k) by lia.
  destruct rate_cases as [[-> H0] | [-> H0]].
  - rewrite Nat2Z.inj_succ. unfold Z.succ. rewrite inject_Z_plus.
    rewrite H0. change (inject_Z 1) with 1. ring.
  - rewrite Qpower_succ_nat. field. exact H0.
Qed.

Lemma rbl_spec_balance (k : nat) :
  Npf.rbl r (Z.of_nat k + 1) P (- A) Npf.End_ == spec_balance A r P k.
Proof.
  induction k as [|k IH].
  - unfold Npf.rbl, Npf.fv, Npf.convert_when.
    change (Z.of_nat 0 + 1 - 1)%Z with 0%Z. cbn [spec_balance].
    destruct rate_cases as [[-> H0] | [-> H0]].
    + change (inject_Z 0) with 0. ring.
    + change ((1 + r) ^ 0) with 1. field. exact H0.
  - rewrite rbl_step. simpl spec_balance. rewrite IH. reflexivity.
Qed.


End Annuity.

(** * The annuity payment *)

Section Payment.

(** The monthly rate, the principal and the number of periods. *)
Variables (r A : Q) (n : nat).
Hypothesis r_nonneg : 0 <= r.
Hypothesis n_pos : (0 < n)%nat.

Let P : Q := Npf.pmt r (Z.of_nat n) (- A) 0 Npf.End_.

Lemma inject_n_pos : 0 < inject_Z (Z.of_nat n).
Proof. change 0 with (inject_Z 0). rewrite <- Zlt_Qlt. lia. Qed.


Lemma pmt_zero_rate : r == 0 -> P == A / inject_Z (Z.of_nat n).
Proof.
  intros H0. unfold P, Npf.pmt, Npf.convert_when.
  rewrite (Qeq_eq_bool _ _ H0).
  assert (Hq : (1 + r) ^ Z.of_nat n == 1) by (apply Qpower_nat_one; lra).
  rewrite Hq. field. assert (H := inject_n_pos). lra.
Qed.








End Payment.

(** * The annuity schedules *)

Section AnnuitySchedules.

Variables (principal interest_rate : Q) (years : Z).

Let monthly_rate : Q := interest_rate / 12.
Let months : Z := (years * 12)%Z.
Let payment : Q := annuity_payment principal interest_rate years.

Lemma annuity_mortgage_unfold :
  annuity_mortgage principal interest_rate years =
  Np.sub (annuity_bruto_payments principal interest_rate years)
         (Np.smul INTEREST_DEDUCTIBLE
                  (annuity_interest_payments principal interest_rate years)).
Proof. reflexivity. Qed.

Lemma annuity_remaining_unfold :
  annuity_mortgage_remaining_principal principal interest_rate years =
  Np.ssub principal
          (Np.cumsum (annuity_principal_payments principal interest_rate years)).
Proof. reflexivity. Qed.

Lemma annuity_bruto_length :
  length (annuity_bruto_payments principal interest_rate years) = Z.to_nat months.
Proof. apply list_repeat_length. Qed.

Lemma annuity_interest_length :
  length (annuity_interest_payments principal interest_rate years) = Z.to_nat months.
Proof.
  unfold annuity_interest_payments. rewrite length_map, range_length.
  f_equal. unfold months. lia.
Qed.

Lemma annuity_principal_length :
  length (annuity_principal_payments principal interest_rate years) = Z.to_nat months.
Proof.
  unfold annuity_principal_payments. rewrite length_map, range_length.
  f_equal. unfold months. lia.
Qed.

(** The two operands of the subtraction in [annuity_mortgage] have one
    shape. *)
Lemma annuity_mortgage_shapes :
  length (annuity_bruto_payments principal interest_rate years) =
  length (Np.smul INTEREST_DEDUCTIBLE
                  (annuity_interest_payments principal interest_rate years)).
Proof.
  unfold Np.smul. now rewrite length_map, annuity_bruto_length, annuity_interest_length.
Qed.

Lemma annuity_mortgage_length :
  length (annuity_mortgage principal interest_rate years) = Z.to_nat months.
Proof.
  rewrite annuity_mortgage_unfold. unfold Np.sub.
  rewrite map2_length by apply annuity_mortgage_shapes.
  apply annuity_bruto_length.
Qed.

Lemma annuity_remaining_length :
  length (annuity_mortgage_remaining_principal principal interest_rate years)
  = Z.to_nat months.
Proof.
  rewrite annuity_remaining_unfold. unfold Np.ssub.
  now rewrite length_map, cumsum_length, annuity_principal_length.
Qed.

Lemma annuity_bruto_nth (k : nat) :
  (k < Z.to_nat months)%nat ->
  nth k (annuity_bruto_payments principal interest_rate years) 0 = payment.
Proof. intros Hk. unfold annuity_bruto_payments. now apply list_repeat_nth. Qed.

(** The interest of period [k + 1] is the monthly rate on the balance
    before that period. *)
Lemma annuity_interest_nth (k : nat) :
  (k < Z.to_nat months)%nat ->
  nth k (annuity_interest_payments principal interest_rate years) 0 ==
  monthly_rate * spec_balance principal monthly_rate payment k.
Proof.
  intros Hk. unfold annuity_interest_payments.
  rewrite (nth_map_lt _ _ _ _ 0%Z) by (rewrite range_length; fold months; lia).
  rewrite range_nth by (fold months; lia).
  unfold Npf.ipmt. fold monthly_rate months.
  replace (1 + Z.of_nat k)%Z with (Z.of_nat k + 1)%Z by lia.
  rewrite rbl_spec_balance. unfold payment, annuity_payment.
  fold monthly_rate months. ring.
Qed.


Lemma annuity_mortgage_nth (k : nat) :
  (k < Z.to_nat months)%nat ->
  nth k (annuity_mortgage principal interest_rate years) 0 ==
  payment - INTEREST_DEDUCTIBLE *
            (monthly_rate * spec_balance principal monthly_rate payment k).
Proof.
  intros Hk. rewrite annuity_mortgage_unfold. unfold Np.sub.
  rewrite map2_nth
    by (try apply annuity_mortgage_shapes; rewrite annuity_bruto_length; exact Hk).
  rewrite annuity_bruto_nth by exact Hk. unfold Np.smul.
  rewrite (nth_map_lt _ _ _ _ 0) by (rewrite annuity_interest_length; exact Hk).
  rewrite annuity_interest_nth by exact Hk. reflexivity.
Qed.



End AnnuitySchedules.

(** * Months of a positive term *)

Section Term.

Variable years : Z.
Hypothesis years_pos : (0 < years)%Z.

Lemma months_of_nat : Z.of_nat (Z.to_nat (years * 12)) = (years * 12)%Z.
Proof. apply Z2Nat.id. lia. Qed.

Lemma months_pos : (0 < Z.to_nat (years * 12))%nat.
Proof. lia. Qed.

Lemma annuity_payment_pmt (principal interest_rate : Q) :
  annuity_payment principal interest_rate years =
  Npf.pmt (interest_rate / 12) (Z.of_nat (Z.to_nat (years * 12)))
          (- principal) 0 Npf.End_.
Proof. rewrite months_of_nat. reflexivity. Qed.

End Term.

Lemma monthly_rate_twelfth (interest_rate : Q) :
  interest_rate / 12 == interest_rate * (1 # 12).
Proof. field. Qed.



Lemma monthly_rate_zero (interest_rate : Q) : interest_rate == 0 -> interest_rate / 12 == 0.
Proof. intros H. rewrite monthly_rate_twelfth. lra. Qed.


(** * The linear schedules *)

Section LinearSchedules.

Variables (principal interest_rate : Q) (years : Z).
Hypothesis years_nonzero : years <> 0%Z.

Let monthly_rate : Q := interest_rate / 12.
Let months : Z := (years * 12)%Z.
Let linear_payment : Q := principal / inject_Z months.

(** The balance before the reduction of month [i + 1]. *)
Let balance (i : Z) : Q := principal - linear_payment * inject_Z i.

Lemma truediv_months : Py.truediv principal months = Ok linear_payment.
Proof.
  unfold Py.truediv.
  replace (months =? 0)%Z with false by (symmetry; apply Z.eqb_neq; unfold months; lia).
  reflexivity.
Qed.

Lemma linear_remaining_ok :
  linear_mortgage_remaining_principal principal years =
  Ok (map balance (Py.range 0 months)).
Proof.
  unfold linear_mortgage_remaining_principal. fold months.
  rewrite truediv_months. reflexivity.
Qed.


Lemma linear_mortgage_ok :
  linear_mortgage principal interest_rate years =
  Ok (let interest_payments :=
        map (fun i => balance i * monthly_rate) (Py.range 0 months) in
      Np.sub (Np.sadd linear_payment interest_payments)
             (Np.smul INTEREST_DEDUCTIBLE interest_payments)).
Proof.
  unfold linear_mortgage. fold months monthly_rate.
  rewrite truediv_months, linear_remaining_ok. cbn [bind].
  rewrite (mapM_ok _ (fun i => balance i * monthly_rate))
    by (intros i Hi; now rewrite getitem_range).
  reflexivity.
Qed.

(** The two operands of the subtraction in [linear_mortgage] have one
    shape. *)
Lemma linear_interest_shape (a : list Q) :
  length (Np.sadd linear_payment a) = length (Np.smul INTEREST_DEDUCTIBLE a).
Proof. unfold Np.sadd, Np.smul. now rewrite !length_map. Qed.


Lemma linear_interest_nth (i : nat) :
  (i < Z.to_nat months)%nat ->
  nth i (map (fun i => balance i * monthly_rate) (Py.range 0 months)) 0
  = balance (Z.of_nat i) * monthly_rate.
Proof.
  intros Hi.
  rewrite (nth_map_lt _ _ _ _ 0%Z) by (rewrite range_length; lia).
  rewrite range_nth by lia. reflexivity.
Qed.

Lemma linear_net_length (a : list Q) :
  length (Np.sub (Np.sadd linear_payment a) (Np.smul INTEREST_DEDUCTIBLE a))
  = length a.
Proof.
  unfold Np.sub. rewrite map2_length by apply linear_interest_shape.
  unfold Np.sadd. now rewrite length_map.
Qed.

Lemma linear_net_nth (a : list Q) (i : nat) :
  (i < length a)%nat ->
  nth i (Np.sub (Np.sadd linear_payment a) (Np.smul INTEREST_DEDUCTIBLE a)) 0
  = linear_payment + nth i a 0 - INTEREST_DEDUCTIBLE * nth i a 0.
Proof.
  intros Hi. unfold Np.sub.
  rewrite map2_nth
    by (try apply linear_interest_shape; unfold Np.sadd; rewrite length_map; exact Hi).
  unfold Np.sadd, Np.smul.
  now rewrite !(nth_map_lt _ _ _ _ 0) by exact Hi.
Qed.

End LinearSchedules.

(** * Appreciation and overhead *)

Section Appreciation.

Variables (initial_asset_value yearly_asset_appreciation : Q).


Lemma monthly_asset_appreciation_length (months : Z) :
  length (monthly_asset_appreciation initial_asset_value months
                                     yearly_asset_appreciation)
  = Z.to_nat months.
Proof.
  unfold monthly_asset_appreciation. rewrite length_map, range_length.
  f_equal. lia.
Qed.


Variable years : Z.

Let house_value_per_month : list Q :=
  asset_appreciation initial_asset_value yearly_asset_appreciation years.

Lemma asset_appreciation_length :
  length house_value_per_month = Z.to_nat (years * 12).
Proof. apply monthly_asset_appreciation_length. Qed.


(** The three arrays added in [overhead_costs] have one shape. *)
Lemma overhead_costs_shapes (c1 c2 c3 : Q) :
  length (Np.muls house_value_per_month c1)
  = length (Np.muls house_value_per_month c2) /\
  length (Np.add (Np.muls house_value_per_month c1)
                 (Np.muls house_value_per_month c2))
  = length (Np.muls house_value_per_month c3).
Proof.
  unfold Np.add. rewrite map2_length; unfold Np.muls; now rewrite !length_map.
Qed.

Lemma overhead_costs_length :
  length (overhead_costs initial_asset_value yearly_asset_appreciation years)
  = Z.to_nat (years * 12).
Proof.
  unfold overhead_costs. fold house_value_per_month.
  unfold Np.add at 1.
  rewrite map2_length by exact (proj2 (overhead_costs_shapes _ _ _)).
  unfold Np.add.
  rewrite map2_length by exact (proj1 (overhead_costs_shapes _ _ 0)).
  unfold Np.muls. rewrite length_map. apply asset_appreciation_length.
Qed.


End Appreciation.



(** * The claims *)


















(** C9.  No operation rejects its input with an error of its own.  With
    [years = 0], [asset_appreciation] and [overhead_costs] (and the two
    annuity schedules) return the empty sequence, while [linear_mortgage] and
    [linear_mortgage_remaining_principal] fail with the division by zero of
    [principal / months].  That is the only failure there is: on every other
    term and on every principal, negative ones included, the linear
    schedules are returned. *)
Theorem no_validation_errors :
  (forall v a : Q, asset_appreciation v a 0 = [] /\ overhead_costs v a 0 = []) /\
  (forall p r : Q,
      annuity_mortgage p r 0 = [] /\
      annuity_mortgage_remaining_principal p r 0 = []) /\
  (forall p r : Q,
      linear_mortgage p r 0 = Raise ZeroDivisionError /\
      linear_mortgage_remaining_principal p 0 = Raise ZeroDivisionError) /\
  (forall (p r : Q) (y : Z),
      y <> 0%Z ->
      exists net remaining,
        linear_mortgage p r y = Ok net /\
        linear_mortgage_remaining_principal p y = Ok remaining /\
        length net = Z.to_nat (y * 12) /\
        length remaining = Z.to_nat (y * 12)) /\
  (forall (p r : Q) (y : Z) (e : exn),
      linear_mortgage p r y = Raise e \/
      linear_mortgage_remaining_principal p y = Raise e ->
      e = ZeroDivisionError /\ y = 0%Z).
Proof.
  assert (Total : forall (p r : Q) (y : Z),
      y <> 0%Z ->
      exists net remaining,
        linear_mortgage p r y = Ok net /\
        linear_mortgage_remaining_principal p y = Ok remaining /\
        length net = Z.to_nat (y * 12) /\
        length remaining = Z.to_nat (y * 12)).
  { intros p r y Hy. do 2 eexists.
    split; [apply linear_mortgage_ok; exact Hy|].
    split; [apply linear_remaining_ok; exact Hy|].
    cbv zeta. rewrite linear_net_length, !length_map, range_length.
    split; f_equal; lia. }
  repeat split; try reflexivity; try exact Total.
  - destruct (Z.eq_dec y 0) as [-> | Hy].
    + destruct H as [H | H]; cbv in H; congruence.
    + destruct (Total p r y Hy) as [net [remaining [E1 [E2 _]]]].
      destruct H as [H | H]; congruence.
  - destruct (Z.eq_dec y 0) as [Hy | Hy]; [exact Hy|].
    destruct (Total p r y Hy) as [net [remaining [E1 [E2 _]]]].
    destruct H as [H | H]; congruence.
Qed.

Lemma no_validation_errors_witness :
  exists net remaining,
    linear_mortgage (-120000) 0.04 1 = Ok net /\
    linear_mortgage_remaining_principal (-120000) 1 = Ok remaining /\
    length net = 12%nat /\ length remaining = 12%nat.
Proof.
  assert (Hy : 1%Z <> 0%Z) by discriminate.
  exact (proj1 (proj2 (proj2 (proj2 no_validation_errors))) (-120000) 0.04 1%Z Hy).
Defined.

(** C10.  At rate zero, on a positive principal and a positive term,
    [annuity_mortgage] and [linear_mortgage] return the same sequence: every
    entry of either is [principal / (years * 12)]. *)
Theorem zero_rate_annuity_is_linear :
  forall (principal interest_rate : Q) (years : Z),
    0 < principal -> (0 < years)%Z -> interest_rate == 0 ->
    exists linear,
      linear_mortgage principal interest_rate years = Ok linear /\
      length linear = Z.to_nat (years * 12) /\
      same_schedule (annuity_mortgage principal interest_rate years) linear /\
      forall k, (k < Z.to_nat (years * 12))%nat ->
        nth k (annuity_mortgage principal interest_rate years) 0
          == principal / inject_Z (years * 12) /\
        nth k linear 0 == principal / inject_Z (years * 12).
Proof.
  intros p ir y Hp Hy Hir.
  assert (Hnz : y <> 0%Z) by lia.
  assert (Hr := monthly_rate_zero ir Hir).
  assert (Hn := months_pos y Hy).
  eexists. split; [apply linear_mortgage_ok; exact Hnz|].
  cbv zeta.
  set (lp := p / inject_Z (y * 12)).
  set (interest := map (fun i => (p - lp * inject_Z i) * (ir / 12))
                       (Py.range 0 (y * 12))).
  assert (L : length interest = Z.to_nat (y * 12)).
  { unfold interest. rewrite length_map, range_length. f_equal. lia. }
  assert (NL := linear_net_length p y interest). fold lp in NL.
  assert (N := linear_net_nth p y interest). fold lp in N.
  assert (Lin : forall k, (k < Z.to_nat (y * 12))%nat ->
     nth k (Np.sub (Np.sadd lp interest) (Np.smul INTEREST_DEDUCTIBLE interest)) 0
     == lp).
  { intros k Hk. rewrite N by lia.
    assert (I : nth k interest 0 = (p - lp * inject_Z (Z.of_nat k)) * (ir / 12))
      by exact (linear_interest_nth p ir y Hnz k Hk).
    rewrite I, Hr. ring. }
  assert (Ann : forall k, (k < Z.to_nat (y * 12))%nat ->
     nth k (annuity_mortgage p ir y) 0 == lp).
  { assert (EP : annuity_payment p ir y == lp).
    { rewrite (annuity_payment_pmt y Hy).
      rewrite pmt_zero_rate; [| lra | exact Hn | exact Hr].
      rewrite (months_of_nat y Hy). reflexivity. }
    intros k Hk. rewrite annuity_mortgage_nth by exact Hk.
    set (b := spec_balance _ _ _ _). rewrite Hr, EP. ring. }
  split; [rewrite NL; exact L|].
  split.
  - split; [rewrite annuity_mortgage_length, NL, L; reflexivity|].
    intros k Hk. rewrite annuity_mortgage_length in Hk.
    rewrite Ann, Lin by exact Hk. reflexivity.
  - intros k Hk. split; [now apply Ann | now apply Lin].
Qed.

Lemma zero_rate_annuity_is_linear_witness :
  exists linear,
    linear_mortgage 120000 0 1 = Ok linear /\
    length linear = Z.to_nat (1 * 12) /\
    same_schedule (annuity_mortgage 120000 0 1) linear.
Proof.
  assert (H0 : 0 == 0) by reflexivity.
  destruct (zero_rate_annuity_is_linear 120000 0 1%Z eq_refl eq_refl H0)
    as [linear [E [L [S _]]]].
  exists linear. repeat split; try assumption; apply S.
Defined.

(** * Sums of schedules *)

Section Sums.






End Sums.



(** * Further properties of the schedules *)












(** X6.  A negative term is not refused: every schedule is then empty, and
    the linear functions return it without raising, [principal / months]
    being a division by a non-zero number. *)
Theorem negative_years_empty :
  forall (principal interest_rate initial_asset_value yearly_asset_appreciation : Q)
         (years : Z),
    (years < 0)%Z ->
    annuity_mortgage principal interest_rate years = [] /\
    annuity_mortgage_remaining_principal principal interest_rate years = [] /\
    linear_mortgage principal interest_rate years = Ok [] /\
    linear_mortgage_remaining_principal principal years = Ok [] /\
    asset_appreciation initial_asset_value yearly_asset_appreciation years = [] /\
    overhead_costs initial_asset_value yearly_asset_appreciation years = [].
Proof.
  intros p ir v a y Hy.
  assert (Hn : Z.to_nat (y * 12) = O) by lia.
  assert (Hnz : y <> 0%Z) by lia.
  assert (R : Py.range 0 (y * 12) = []).
  { apply length_zero_iff_nil. rewrite range_length. lia. }
  repeat split.
  - apply length_zero_iff_nil. now rewrite annuity_mortgage_length.
  - apply length_zero_iff_nil. now rewrite annuity_remaining_length.
  - rewrite linear_mortgage_ok by exact Hnz. cbv zeta. rewrite R. reflexivity.
  - rewrite linear_remaining_ok by exact Hnz. rewrite R. reflexivity.
  - apply length_zero_iff_nil. unfold asset_appreciation.
    now rewrite monthly_asset_appreciation_length.
  - apply length_zero_iff_nil. now rewrite overhead_costs_length.
Qed.

Lemma negative_years_empty_witness :
  annuity_mortgage 120000 0.04 (-1) = [] /\
  linear_mortgage 120000 0.04 (-1) = Ok [].
Proof.
  destruct (negative_years_empty 120000 0.04 400000 0.03 (-1)%Z eq_refl)
    as [A [_ [L _]]].
  split; [exact A | exact L].
Defined.








(** * Compound against simple growth *)

Section Bernoulli.

Variable x : Q.





End Bernoulli.










